(** * config.py: the configuration module of the futures trading bot

    The module reads three environment variables, derives the endpoint
    URL and the log paths, and makes sure the log directory is there.
    It is embedded as a program in a small state-and-exception monad over
    a [World]: the interpreter's [os.environ], the filesystem, and the
    platform whose [os.path] flavour the interpreter loaded. *)

From Stdlib Require Import Ascii String.
From stdpp Require Import gmap strings.

Local Open Scope string_scope.

(** ** Python [str] operations used by [os.path] *)

Module pystr.

Definition bslash : ascii := "092"%char.

Definition is_lower (c : ascii) : bool :=
  (97 <=? nat_of_ascii c)%nat && (nat_of_ascii c <=? 122)%nat.
Definition is_upper (c : ascii) : bool :=
  (65 <=? nat_of_ascii c)%nat && (nat_of_ascii c <=? 90)%nat.

Definition upper_char (c : ascii) : ascii :=
  if is_lower c then ascii_of_nat (nat_of_ascii c - 32) else c.
Definition lower_char (c : ascii) : ascii :=
  if is_upper c then ascii_of_nat (nat_of_ascii c + 32) else c.

Fixpoint map_chars (f : ascii -> ascii) (s : string) : string :=
  match s with
  | EmptyString => EmptyString
  | String c s' => String (f c) (map_chars f s')
  end.

(** [s.upper()] and [s.lower()], on the ASCII letters. *)
Definition upper : string -> string := map_chars upper_char.
Definition lower : string -> string := map_chars lower_char.

(** [s.replace(a, b)] for one-character [a] and [b]. *)
Definition replace (a b : ascii) : string -> string :=
  map_chars (fun c => if Ascii.eqb c a then b else c).

(** [s[i:j]], [s[:j]] and [s[i:]] for indices that are not negative. *)
Definition slice (i j : nat) (s : string) : string := substring i (j - i) s.
Definition upto (j : nat) (s : string) : string := substring 0 j s.
Definition from (i : nat) (s : string) : string :=
  substring i (String.length s - i) s.

(** [c in seps] *)
Fixpoint mem (c : ascii) (seps : string) : bool :=
  match seps with
  | EmptyString => false
  | String x seps' => Ascii.eqb c x || mem c seps'
  end.

Definition first_char (s : string) : option ascii :=
  match s with EmptyString => None | String c _ => Some c end.

Fixpoint last_char (s : string) : option ascii :=
  match s with
  | EmptyString => None
  | String c EmptyString => Some c
  | String _ s' => last_char s'
  end.

Definition is_empty (s : string) : bool :=
  match s with EmptyString => true | _ => false end.

(** [s.startswith(c)] and [s.endswith(c)] for a one-character [c]. *)
Definition startswith (c : ascii) (s : string) : bool :=
  match first_char s with Some x => Ascii.eqb x c | None => false end.
Definition endswith (c : ascii) (s : string) : bool :=
  match last_char s with Some x => Ascii.eqb x c | None => false end.

(** [s.rstrip(seps)] *)
Fixpoint rstrip (seps : string) (s : string) : string :=
  match s with
  | EmptyString => EmptyString
  | String c s' =>
      match rstrip seps s' with
      | EmptyString => if mem c seps then EmptyString else String c EmptyString
      | r => String c r
      end
  end.

(** The index just past the last character of [s] that is in [seps],
    0 when there is none: [s.rfind(sep) + 1], and the [while] loop of
    [ntpath.split]. *)
Fixpoint past_last (seps : string) (s : string) : nat :=
  match s with
  | EmptyString => 0
  | String c s' =>
      match past_last seps s' with
      | 0 => if mem c seps then 1 else 0
      | S k => S (S k)
      end
  end.

(** [s.find(c, start)]; [None] is Python's [-1]. *)
Fixpoint find (c : ascii) (start : nat) (s : string) : option nat :=
  match s with
  | EmptyString => None
  | String x s' =>
      match start with
      | 0 => if Ascii.eqb x c then Some 0 else S <$> find c 0 s'
      | S start' => S <$> find c start' s'
      end
  end.

(** [s == sep * len(s)] *)
Fixpoint all_chars (c : ascii) (s : string) : bool :=
  match s with
  | EmptyString => true
  | String x s' => Ascii.eqb x c && all_chars c s'
  end.

End pystr.

(** ** [posixpath] *)

Module posixpath.
Import pystr.

Definition sep : ascii := "/"%char.

(** [posixpath.join(a, b)] *)
Definition join (a b : string) : string :=
  if startswith sep b then b
  else if is_empty a || endswith sep a then a ++ b
  else a ++ String sep b.

(** [posixpath.split(p)] *)
Definition split (p : string) : string * string :=
  let i := past_last (String sep "") p in
  let head := upto i p in
  let tail := from i p in
  let head :=
    if negb (is_empty head) && negb (all_chars sep head)
    then rstrip (String sep "") head else head in
  (head, tail).

End posixpath.

(** ** [ntpath] *)

Module ntpath.
Import pystr.

Definition sep : ascii := bslash.
Definition altsep : ascii := "/"%char.
Definition colon : ascii := ":"%char.
Definition seps : string := String bslash "/".
Definition unc_prefix : string :=
  String bslash (String bslash ("?" ++ String bslash ("UNC" ++ String bslash ""))).

(** [ntpath.splitdrive(p)] *)
Definition splitdrive (p : string) : string * string :=
  if (2 <=? String.length p)%nat then
    let normp := replace altsep sep p in
    if String.eqb (slice 0 2 normp) (String sep (String sep "")) then
      let start := if String.eqb (upper (upto 8 normp)) unc_prefix then 8 else 2 in
      match find sep start normp with
      | None => (p, "")
      | Some index =>
          match find sep (index + 1) normp with
          | None => (p, "")
          | Some index2 => (upto index2 p, from index2 p)
          end
      end
    else if String.eqb (slice 1 2 normp) (String colon "") then
      (upto 2 p, from 2 p)
    else ("", p)
  else ("", p).

Definition in_seps (o : option ascii) : bool :=
  match o with Some c => mem c seps | None => false end.

(** [ntpath.join(path, p)] *)
Definition join (path p : string) : string :=
  let '(result_drive, result_path) := splitdrive path in
  let '(p_drive, p_path) := splitdrive p in
  let '(result_drive, result_path) :=
    if negb (is_empty p_path) && in_seps (first_char p_path) then
      (if negb (is_empty p_drive) || is_empty result_drive
       then p_drive else result_drive, p_path)
    else
      let relative (drive : string) :=
        let result_path :=
          if negb (is_empty result_path) && negb (in_seps (last_char result_path))
          then result_path ++ String sep "" else result_path in
        (drive, result_path ++ p_path) in
      if negb (is_empty p_drive) && negb (String.eqb p_drive result_drive) then
        if negb (String.eqb (lower p_drive) (lower result_drive))
        then (p_drive, p_path)
        else relative p_drive
      else relative result_drive in
  if negb (is_empty result_path) && negb (in_seps (first_char result_path))
     && negb (is_empty result_drive)
     && negb (String.eqb (from (String.length result_drive - 1) result_drive)
                         (String colon ""))
  then result_drive ++ String sep result_path
  else result_drive ++ result_path.

(** [ntpath.split(p)] *)
Definition split (p : string) : string * string :=
  let '(d, p) := splitdrive p in
  let i := past_last seps p in
  let head := upto i p in
  let tail := from i p in
  let head := if is_empty (rstrip seps head) then head else rstrip seps head in
  (d ++ head, tail).

End ntpath.

(** ** The world of the interpreter *)

(** [os.name] *)
Inductive os_name := posix | nt.

(** What a path names, as a system call finds it.  A directory carries
    whether entries may be created in it (a link to a directory counts as
    the directory).  [Special] is any other entry that [stat] resolves: a
    FIFO, a socket, a device.  [BrokenLink] is a symbolic link that leads
    nowhere, or in a circle.  [Inaccessible] is an entry the process is
    not permitted to reach, the directory it is in not being searchable. *)
Inductive node :=
| Directory (writable : bool)
| RegularFile
| Special
| BrokenLink
| Inaccessible.

(** The filesystem as the process addresses it: the entries by the
    spelling of their path, relative to the working directory when the
    path has no directory part.  One spelling stands for one entry;
    alternative spellings of one entry are not modelled, but for the
    working directory itself, which is also the path of one dot. *)
Record FS := {
  entries : gmap string node;
  cwd_writable : bool;
}.

(** The exceptions the library calls of the module raise.  The first
    four are subclasses of [OSError]; [OSError] itself stands for any
    other of them. *)
Inductive exn :=
| FileExistsError
| FileNotFoundError
| NotADirectoryError
| PermissionError
| OSError
| ValueError
| UnicodeDecodeError
| RecursionError.

(** The system calls lines 16 and 17 issue, as they are logged. *)
Inductive syscall := sys_stat (path : string) | sys_mkdir (path : string).

Record World := {
  platform : os_name;
  (** [os.environ] *)
  environ : gmap string string;
  (** the [.env] file [load_dotenv] finds: its bindings in file order,
      with the values as python-dotenv resolves them; [None] when there
      is no such file *)
  dotenv_file : option (list (string * option string));
  files : FS;
  (** what the other processes do to the filesystem between one system
      call of this process and its next; empty when it runs alone *)
  others : list (FS -> FS);
  (** the system calls of lines 16 and 17 issued so far *)
  trace : list syscall;
}.

Definition with_environ (env : gmap string string) (w : World) : World :=
  {| platform := platform w; environ := env; dotenv_file := dotenv_file w;
     files := files w; others := others w; trace := trace w |}.

(** ** The monad: state and exceptions *)

Inductive outcome (A : Type) := Returned (a : A) | Raised (e : exn).
Arguments Returned {A} a.
Arguments Raised {A} e.

Definition M (A : Type) : Type := World -> outcome A * World.

#[global] Instance M_ret : MRet M := fun A a w => (Returned a, w).

#[global] Instance M_bind : MBind M := fun A B f m w =>
  match m w with
  | (Returned a, w') => f a w'
  | (Raised e, w') => (Raised e, w')
  end.

Definition raise {A : Type} (e : exn) : M A := fun w => (Raised e, w).

(** [try: body except exn as e: handler e] *)
Definition try_except {A : Type} (body : M A) (handler : exn -> M A) : M A :=
  fun w =>
    match body w with
    | (Raised e, w') => handler e w'
    | r => r
    end.

Definition gets {A : Type} (f : World -> A) : M A := fun w => (Returned (f w), w).

Definition modify (f : World -> World) : M unit := fun w => (Returned tt, f w).

(** The filesystem the next system call finds: the first call of the
    process finds the initial one, a later call finds what the other
    processes made of it in between. *)
Definition scheduled (w : World) : FS * list (FS -> FS) :=
  match trace w, others w with
  | _ :: _, f :: rest => (f (files w), rest)
  | _, _ => (files w, others w)
  end.

Definition next_files (w : World) : FS := fst (scheduled w).

Definition system_call {A : Type} (c : syscall) (act : FS -> outcome A * FS) : M A :=
  fun w =>
    let '(fs, rest) := scheduled w in
    let '(r, fs') := act fs in
    (r, {| platform := platform w; environ := environ w;
           dotenv_file := dotenv_file w;
           files := fs'; others := rest; trace := trace w ++ [c] |}).

(** ** [os] *)

Definition os_path_join_on (o : os_name) (a b : string) : string :=
  match o with posix => posixpath.join a b | nt => ntpath.join a b end.

Definition os_path_split_on (o : os_name) (p : string) : string * string :=
  match o with posix => posixpath.split p | nt => ntpath.split p end.

(** [os.path.join(a, b)] *)
Definition os_path_join (a b : string) : M string :=
  o ← gets platform; mret (os_path_join_on o a b).

(** [os.environ] encodes a key before it looks it up or stores it: on
    Windows the key is put in upper case.  The strings here are byte
    strings and [pystr.upper] changes the ASCII letters only; a key with
    other letters is left as it is written. *)
Definition encodekey (o : os_name) (key : string) : string :=
  match o with posix => key | nt => pystr.upper key end.

(** [os.getenv(key, default)]; the [None] of Python is [None]. *)
Definition os_getenv (key : string) (default : option string) : M (option string) :=
  o ← gets platform;
  env ← gets environ;
  mret (match env !! encodekey o key with
        | Some v => Some v
        | None => default
        end).

(** The spelling under which the filesystem holds an entry: separators
    that trail the path do not count. *)
Definition os_seps (o : os_name) : string :=
  match o with posix => String posixpath.sep "" | nt => ntpath.seps end.

Definition entry_key (o : os_name) (path : string) : string :=
  let key := pystr.rstrip (os_seps o) path in
  if pystr.is_empty key then path else key.

(** [os.curdir] *)
Definition curdir : string := ".".

(** What is at a path.  The path of one dot is the working directory. *)
Definition node_at (fs : FS) (key : string) : option node :=
  if String.eqb key curdir then Some (Directory (cwd_writable fs))
  else entries fs !! key.

(** [os.stat(path)], for what the module uses of it.  It follows links,
    so it fails on a broken one; it fails on an entry it may not reach;
    and a path that ends in a separator has to name a directory. *)
Definition stat_fs (o : os_name) (path : string) (fs : FS) : outcome node * FS :=
  match node_at fs (entry_key o path) with
  | Some (Directory w) => (Returned (Directory w), fs)
  | Some BrokenLink => (Raised FileNotFoundError, fs)
  | Some Inaccessible => (Raised PermissionError, fs)
  | Some n =>
      if String.eqb (entry_key o path) path then (Returned n, fs)
      else (Raised NotADirectoryError, fs)
  | None => (Raised FileNotFoundError, fs)
  end.

Definition os_stat (path : string) : M node :=
  o ← gets platform;
  system_call (sys_stat path) (stat_fs o path).

(** [os.path.exists(path)]: [os.stat] succeeds. *)
Definition os_path_exists (path : string) : M bool :=
  try_except (_ ← os_stat path; mret true) (fun _ => mret false).

(** A filesystem with [path] made a directory. *)
Definition with_directory (path : string) (fs : FS) : FS :=
  {| entries := <[path := Directory true]> (entries fs);
     cwd_writable := cwd_writable fs |}.

(** [os.mkdir(path)]: the directory part has to be a directory, nothing
    may be at the path yet (a broken link is something), and the
    directory part has to be writable. *)
Definition mkdir_fs (o : os_name) (path : string) (fs : FS) : outcome unit * FS :=
  if pystr.is_empty path then (Raised FileNotFoundError, fs) else
  let key := entry_key o path in
  let parent := (os_path_split_on o key).1 in
  match (if pystr.is_empty parent then Some (Directory (cwd_writable fs))
         else node_at fs parent) with
  | None | Some BrokenLink => (Raised FileNotFoundError, fs)
  | Some RegularFile | Some Special => (Raised NotADirectoryError, fs)
  | Some Inaccessible => (Raised PermissionError, fs)
  | Some (Directory w) =>
      match node_at fs key with
      | Some Inaccessible => (Raised PermissionError, fs)
      | Some _ => (Raised FileExistsError, fs)
      | None =>
          if w then (Returned tt, with_directory key fs)
          else (Raised PermissionError, fs)
      end
  end.

Definition os_mkdir (path : string) : M unit :=
  o ← gets platform;
  system_call (sys_mkdir path) (mkdir_fs o path).

(** [os.makedirs(name)], with [exist_ok] left at its default [False]:
    an [OSError] of the final [mkdir] is raised again as it is.  [o] is
    the platform whose [os.path] the function splits with, and [depth]
    bounds the nesting of the calls. *)
Fixpoint makedirs_depth (o : os_name) (depth : nat) (name : string) : M unit :=
  match depth with
  | 0 => raise RecursionError
  | S depth' =>
      let '(head, tail) := os_path_split_on o name in
      let '(head, tail) :=
        if pystr.is_empty tail then os_path_split_on o head else (head, tail) in
      missing ← (if negb (pystr.is_empty head) && negb (pystr.is_empty tail)
                 then e ← os_path_exists head; mret (negb e)
                 else mret false);
      if (missing : bool) then
        try_except (makedirs_depth o depth' head)
                   (fun e => match e with
                             | FileExistsError => mret tt
                             | _ => raise e
                             end);;
        if String.eqb tail curdir then mret tt else os_mkdir name
      else os_mkdir name
  end.

(** [sys.getrecursionlimit()], as the interpreter starts with it. *)
Definition recursion_limit : nat := 1000.

(** The interpreter lets the calls nest up to its recursion limit and
    raises [RecursionError] beyond. *)
Definition os_makedirs (name : string) : M unit :=
  o ← gets platform;
  makedirs_depth o recursion_limit name.

(** ** [dotenv] *)

(** The dictionary python-dotenv makes of the bindings of the file: a
    name keeps the place of its first binding and takes the value of its
    last. *)
Fixpoint dict_set (k : string) (v : option string)
    (d : list (string * option string)) : list (string * option string) :=
  match d with
  | [] => [(k, v)]
  | (k', v') :: d' =>
      if String.eqb k' k then (k', v) :: d' else (k', v') :: dict_set k v d'
  end.

Definition dotenv_dict (bindings : list (string * option string))
  : list (string * option string) :=
  fold_left (fun d kv => dict_set kv.1 kv.2 d) bindings [].

(** What [load_dotenv()] does with the dictionary, [override] left at
    its default [False]: a key that [os.environ] has is skipped, a key
    with no value is skipped, any other is stored. *)
Fixpoint set_as_environment_variables
    (o : os_name) (kvs : list (string * option string))
    (env : gmap string string) : gmap string string :=
  match kvs with
  | [] => env
  | (k, v) :: kvs' =>
      set_as_environment_variables o kvs'
        (match env !! encodekey o k, v with
         | None, Some s => <[encodekey o k := s]> env
         | _, _ => env
         end)
  end.

Definition environ_after_dotenv (w : World) : gmap string string :=
  match dotenv_file w with
  | None => environ w
  | Some bindings =>
      set_as_environment_variables (platform w) (dotenv_dict bindings) (environ w)
  end.

(** Line 4, [load_dotenv()], when python-dotenv can read the file and
    [os.environ] takes every entry; [load_dotenv_from] below is the line
    with the ways it can raise. *)
Definition load_dotenv : M unit :=
  modify (fun w => with_environ (environ_after_dotenv w) w).

(** ** [config.py] *)

(** The names the module binds.  The specification calls them [api_key],
    [api_secret], [use_test_network], [base_endpoint_url],
    [log_directory_path] and [log_file_path]. *)
Record Config := {
  BINANCE_API_KEY : option string;
  BINANCE_API_SECRET : option string;
  TESTNET : bool;
  FUTURES_BASE_URL : string;
  LOG_DIR : string;
  LOG_FILE : string;
}.

(** [x == s] for [x] a string or [None] *)
Definition py_eq (x : option string) (s : string) : bool :=
  match x with Some v => String.eqb v s | None => false end.

(** Lines 4 to 13: the settings. *)
Definition settings : M Config :=
  load_dotenv;;
  BINANCE_API_KEY ← os_getenv "BINANCE_API_KEY" None;
  BINANCE_API_SECRET ← os_getenv "BINANCE_API_SECRET" None;
  testnet ← os_getenv "TESTNET" (Some "True");
  let TESTNET := py_eq testnet "True" in
  let FUTURES_BASE_URL :=
    if TESTNET then "https://testnet.binancefuture.com"
    else "https://fapi.binance.com" in
  let LOG_DIR := "logs" in
  LOG_FILE ← os_path_join LOG_DIR "bot.log";
  mret {| BINANCE_API_KEY := BINANCE_API_KEY;
          BINANCE_API_SECRET := BINANCE_API_SECRET;
          TESTNET := TESTNET;
          FUTURES_BASE_URL := FUTURES_BASE_URL;
          LOG_DIR := LOG_DIR;
          LOG_FILE := LOG_FILE |}.

(** Lines 15 to 17: ensure log directory exists. *)
Definition ensure_log_directory (LOG_DIR : string) : M unit :=
  e ← os_path_exists LOG_DIR;
  if negb e then os_makedirs LOG_DIR else mret tt.

(** The module, top to bottom. *)
Definition config_py : M Config :=
  cfg ← settings;
  ensure_log_directory (LOG_DIR cfg);;
  mret cfg.


(** ** Worlds to state the results with *)

(** The world after a system call that left the filesystem [fs']. *)
Definition after_call (c : syscall) (fs' : FS) (w : World) : World :=
  {| platform := platform w; environ := environ w;
     dotenv_file := dotenv_file w;
     files := fs'; others := (scheduled w).2; trace := trace w ++ [c] |}.

(** Whether [os.stat] succeeds on what is at a path, and so what
    [os.path.exists] answers. *)
Definition resolves (n : node) : bool :=
  match n with
  | Directory _ | RegularFile | Special => true
  | BrokenLink | Inaccessible => false
  end.

Definition found (at_path : option node) : bool :=
  match at_path with Some n => resolves n | None => false end.

(** A process started alone, with no [.env] file around. *)
Definition fresh_world (o : os_name) (env : gmap string string) (fs : FS) : World :=
  {| platform := o; environ := env; dotenv_file := None;
     files := fs; others := []; trace := [] |}.

Definition empty_fs : FS := {| entries := ∅; cwd_writable := true |}.


(** A regular file named logs in a writable working directory. *)
Definition file_world : World :=
  fresh_world posix ∅ {| entries := {[ "logs" := RegularFile ]}; cwd_writable := true |}.

(** A symbolic link named logs that leads nowhere. *)
Definition link_world : World :=
  fresh_world posix ∅ {| entries := {[ "logs" := BrokenLink ]}; cwd_writable := true |}.

(** A working directory with entries of its own, in which nothing may
    be created; and the same, writable. *)
Definition busy_fs (writable : bool) : FS :=
  {| entries := {[ "data" := RegularFile; "src" := Directory true ]};
     cwd_writable := writable |}.

Definition locked_world : World := fresh_world posix ∅ (busy_fs false).

Definition busy_world : World := fresh_world posix ∅ (busy_fs true).


(** A first run: TESTNET set in the process, a key in the [.env] file,
    no log directory yet. *)
Definition first_world : World :=
  {| platform := posix;
     environ := {[ "TESTNET" := "False" ]};
     dotenv_file := Some [("BINANCE_API_KEY", Some "abc")];
     files := empty_fs; others := []; trace := [] |}.

Definition first_config : Config :=
  {| BINANCE_API_KEY := Some "abc";
     BINANCE_API_SECRET := None;
     TESTNET := false;
     FUTURES_BASE_URL := "https://fapi.binance.com";
     LOG_DIR := "logs";
     LOG_FILE := "logs/bot.log" |}.

(** The world the first run leaves. *)
Definition second_world : World := (config_py first_world).2.

(** ** Line 4 in full

    [load_dotenv()] reads the file, and stores its entries one by one in
    [os.environ]; either can raise. *)

Definition NUL : ascii := "000"%char.

(** Why [os.environ] refuses a name and a value, if it does ([putenv] of
    CPython 3.11): a NUL in either, an equals sign in the name (on
    Windows, after its first character), an empty name, and on Windows a
    name and value longer than the environment block allows. *)
Definition putenv_error (o : os_name) (key value : string) : option exn :=
  if pystr.mem NUL key || pystr.mem NUL value then Some ValueError
  else
    match o with
    | posix =>
        if pystr.mem "="%char key then Some ValueError
        else if pystr.is_empty key then Some OSError
        else None
    | nt =>
        if pystr.is_empty key || pystr.mem "="%char (pystr.from 1 key)
        then Some ValueError
        else if (32767 <? N.of_nat (String.length key + 1 + String.length value))%N
        then Some ValueError
        else None
    end.

(** [os.environ[key] = value] *)
Definition environ_setitem (key value : string) : M unit :=
  fun w =>
    let k := encodekey (platform w) key in
    match putenv_error (platform w) k value with
    | Some e => (Raised e, w)
    | None => (Returned tt, with_environ (<[k := value]> (environ w)) w)
    end.

(** The loop of [set_as_environment_variables], store by store. *)
Fixpoint store_entries (d : list (string * option string)) : M unit :=
  match d with
  | [] => mret tt
  | (k, v) :: d' =>
      o ← gets platform;
      env ← gets environ;
      match env !! encodekey o k, v with
      | None, Some s => environ_setitem k s;; store_entries d'
      | _, _ => store_entries d'
      end
  end.

(** What [load_dotenv()] finds: no file, a file it cannot read or decode
    (with the exception that raises), or the bindings of the file. *)
Inductive dotenv_source :=
| env_missing
| env_unreadable (e : exn)
| env_bindings (bindings : list (string * option string)).

Definition load_dotenv_from (src : dotenv_source) : M unit :=
  match src with
  | env_missing => mret tt
  | env_unreadable e => raise e
  | env_bindings bindings => store_entries (dotenv_dict bindings)
  end.

(** Lines 6 to 13. *)
Definition read_settings : M Config :=
  BINANCE_API_KEY ← os_getenv "BINANCE_API_KEY" None;
  BINANCE_API_SECRET ← os_getenv "BINANCE_API_SECRET" None;
  testnet ← os_getenv "TESTNET" (Some "True");
  let TESTNET := py_eq testnet "True" in
  let FUTURES_BASE_URL :=
    if TESTNET then "https://testnet.binancefuture.com"
    else "https://fapi.binance.com" in
  let LOG_DIR := "logs" in
  LOG_FILE ← os_path_join LOG_DIR "bot.log";
  mret {| BINANCE_API_KEY := BINANCE_API_KEY;
          BINANCE_API_SECRET := BINANCE_API_SECRET;
          TESTNET := TESTNET;
          FUTURES_BASE_URL := FUTURES_BASE_URL;
          LOG_DIR := LOG_DIR;
          LOG_FILE := LOG_FILE |}.

(** The module, top to bottom, with line 4 in full. *)
Definition config_py_from (src : dotenv_source) : M Config :=
  load_dotenv_from src;;
  cfg ← read_settings;
  ensure_log_directory (LOG_DIR cfg);;
  mret cfg.

(** The source a world stands for when the file can be read. *)
Definition source_of (w : World) : dotenv_source :=
  match dotenv_file w with
  | None => env_missing
  | Some bindings => env_bindings bindings
  end.

(** A [.env] file with a NUL in a value. *)
Definition nul_source : dotenv_source :=
  env_bindings [("BINANCE_API_KEY", Some ("a" ++ String NUL "b"))].

(** * Properties *)

(** ** The monad steps *)

Lemma bind_returned {A B : Type} (m : M A) (f : A -> M B) (w w' : World) (a : A) :
  m w = (Returned a, w') -> (m ≫= f) w = f a w'.
Proof. intros H. unfold mbind, M_bind. now rewrite H. Qed.

Lemma bind_raised {A B : Type} (m : M A) (f : A -> M B) (w w' : World) (e : exn) :
  m w = (Raised e, w') -> (m ≫= f) w = (Raised e, w').
Proof. intros H. unfold mbind, M_bind. now rewrite H. Qed.

(** ** The environment *)

Lemma encodekey_upper_case (o : os_name) :
  encodekey o "BINANCE_API_KEY" = "BINANCE_API_KEY"
  /\ encodekey o "BINANCE_API_SECRET" = "BINANCE_API_SECRET"
  /\ encodekey o "TESTNET" = "TESTNET".
Proof. destruct o; repeat split; reflexivity. Qed.

(** [load_dotenv] keeps every variable the environment has. *)
Lemma dotenv_keeps (o : os_name) (kvs : list (string * option string))
    (env : gmap string string) (key value : string) :
  env !! key = Some value ->
  set_as_environment_variables o kvs env !! key = Some value.
Proof.
  revert env. induction kvs as [|[k v] kvs IH]; intros env Hkey; simpl.
  - exact Hkey.
  - apply IH.
    destruct (env !! encodekey o k) eqn:Hk, v; try exact Hkey.
    rewrite lookup_insert_ne; [exact Hkey|].
    intros Heq. rewrite Heq in Hk. congruence.
Qed.

(** A second pass over the same file changes nothing more. *)
Lemma dotenv_settled (o : os_name) (kvs : list (string * option string))
    (env : gmap string string) :
  Forall (fun kv => kv.2 = None \/ is_Some (env !! encodekey o kv.1)) kvs ->
  set_as_environment_variables o kvs env = env.
Proof.
  revert env. induction kvs as [|[k v] kvs IH]; intros env Hall; simpl.
  - reflexivity.
  - inversion Hall as [|? ? Hhead Htail]; subst. simpl in Hhead.
    destruct (env !! encodekey o k) eqn:Hk.
    + apply IH, Htail.
    + destruct v as [s|].
      * destruct Hhead as [Hv|[? Hv]]; discriminate.
      * apply IH, Htail.
Qed.

Lemma dotenv_settles (o : os_name) (kvs pre : list (string * option string))
    (env : gmap string string) :
  Forall (fun kv => kv.2 = None \/ is_Some (env !! encodekey o kv.1)) pre ->
  Forall (fun kv => kv.2 = None
                    \/ is_Some (set_as_environment_variables o kvs env !! encodekey o kv.1))
         (pre ++ kvs)%list.
Proof.
  revert env pre. induction kvs as [|[k v] kvs IH]; intros env pre Hpre; simpl.
  - rewrite app_nil_r. exact Hpre.
  - replace (pre ++ (k, v) :: kvs)%list with ((pre ++ [(k, v)]) ++ kvs)%list
      by (rewrite <- app_assoc; reflexivity).
    apply IH. apply Forall_app. split.
    + eapply Forall_impl; [exact Hpre|].
      intros [k' v'] [Hn|[x Hx]]; [left; exact Hn|right]. cbn [fst snd] in *.
      destruct (env !! encodekey o k) eqn:Hk, v; eauto.
      destruct (decide (encodekey o k = encodekey o k')) as [Heq|Hne].
      * rewrite Heq, lookup_insert_eq. eauto.
      * rewrite lookup_insert_ne by exact Hne. eauto.
    + constructor; [|constructor]. cbn [fst snd].
      destruct (env !! encodekey o k) eqn:Hk, v; eauto.
      right. rewrite lookup_insert_eq. eauto.
Qed.

Lemma dotenv_idempotent (o : os_name) (kvs : list (string * option string))
    (env : gmap string string) :
  set_as_environment_variables o kvs (set_as_environment_variables o kvs env)
  = set_as_environment_variables o kvs env.
Proof.
  apply dotenv_settled.
  exact (dotenv_settles o kvs [] env (Forall_nil_2 _)).
Qed.

(** ** The dictionary of the [.env] file *)

Lemma dict_set_elem (k : string) (v : option string)
    (d : list (string * option string)) (x : string * option string) :
  x ∈ dict_set k v d -> x = (k, v) \/ x ∈ d.
Proof.
  induction d as [|[k' v'] d IH]; simpl.
  - intros H. apply list_elem_of_singleton in H. now left.
  - destruct (String.eqb k' k) eqn:Hk.
    + apply String.eqb_eq in Hk. subst k'.
      intros H. apply elem_of_cons in H as [H|H]; [now left|].
      right. now apply list_elem_of_further.
    + intros H. apply elem_of_cons in H as [H|H].
      * right. subst x. apply list_elem_of_here.
      * destruct (IH H) as [?|?]; [now left|right]. now apply list_elem_of_further.
Qed.

(** Every entry of the dictionary is a binding of the file. *)
Lemma dotenv_dict_elem (bindings : list (string * option string))
    (x : string * option string) :
  x ∈ dotenv_dict bindings -> x ∈ bindings.
Proof.
  unfold dotenv_dict.
  assert (H : forall d, x ∈ fold_left (fun d kv => dict_set kv.1 kv.2 d) bindings d ->
                        x ∈ d \/ x ∈ bindings).
  { induction bindings as [|[k v] bs IH]; intros d; simpl.
    - now left.
    - intros Hx. destruct (IH _ Hx) as [Hd|Hb].
      + apply dict_set_elem in Hd as [->|Hd]; [right; apply list_elem_of_here|now left].
      + right. now apply list_elem_of_further. }
  intros Hx. destruct (H [] Hx) as [Hnil|Hb]; [|exact Hb].
  now apply elem_of_nil in Hnil.
Qed.

Lemma environ_after_dotenv_keeps (w : World) (key value : string) :
  environ w !! key = Some value -> environ_after_dotenv w !! key = Some value.
Proof.
  intros Hv. unfold environ_after_dotenv.
  destruct (dotenv_file w) as [bindings|]; [now apply dotenv_keeps|exact Hv].
Qed.

(** ** The settings *)

(** What lines 4 to 13 compute, read off the environment that
    [load_dotenv] leaves. *)
Lemma settings_run (w : World) :
  let env := environ_after_dotenv w in
  settings w =
  (Returned
     {| BINANCE_API_KEY := env !! "BINANCE_API_KEY";
        BINANCE_API_SECRET := env !! "BINANCE_API_SECRET";
        TESTNET := match env !! "TESTNET" with
                   | Some v => String.eqb v "True"
                   | None => true
                   end;
        FUTURES_BASE_URL :=
          if match env !! "TESTNET" with
             | Some v => String.eqb v "True"
             | None => true
             end
          then "https://testnet.binancefuture.com"
          else "https://fapi.binance.com";
        LOG_DIR := "logs";
        LOG_FILE := os_path_join_on (platform w) "logs" "bot.log" |},
   with_environ env w).
Proof.
  intros env. subst env.
  destruct (encodekey_upper_case (platform w)) as (Hkey & Hsecret & Hflag).
  unfold settings, load_dotenv, os_getenv, os_path_join, modify, gets.
  unfold mbind, M_bind, mret, M_ret. cbn [environ platform with_environ].
  rewrite Hkey, Hsecret, Hflag.
  destruct (environ_after_dotenv w !! "BINANCE_API_KEY"),
           (environ_after_dotenv w !! "BINANCE_API_SECRET"),
           (environ_after_dotenv w !! "TESTNET"); reflexivity.
Qed.

(** ** The filesystem calls *)

(** The first system call of a process finds the filesystem as it is. *)
Lemma next_files_first (w : World) : trace w = [] -> next_files w = files w.
Proof. unfold next_files, scheduled. now intros ->. Qed.

(** So does every call of a process that runs alone. *)
Lemma next_files_alone (w : World) : others w = [] -> next_files w = files w.
Proof. unfold next_files, scheduled. intros ->. now destruct (trace w). Qed.

Lemma system_call_run {A : Type} (c : syscall) (act : FS -> outcome A * FS) (w : World) :
  system_call c act w = ((act (next_files w)).1, after_call c (act (next_files w)).2 w).
Proof.
  unfold system_call, after_call, next_files.
  destruct (scheduled w) as [fs rest]. cbn [fst snd].
  destruct (act fs) as [r fs']. reflexivity.
Qed.

Lemma entry_key_logs (o : os_name) : entry_key o "logs" = "logs".
Proof. destruct o; reflexivity. Qed.

Lemma split_logs (o : os_name) : os_path_split_on o "logs" = ("", "logs").
Proof. destruct o; reflexivity. Qed.

Lemma stat_fs_keeps (o : os_name) (path : string) (fs : FS) :
  (stat_fs o path fs).2 = fs.
Proof.
  unfold stat_fs.
  destruct (node_at fs (entry_key o path)) as [[]|]; try reflexivity;
    destruct (String.eqb (entry_key o path) path); reflexivity.
Qed.

(** The existence check never raises, and leaves the filesystem as it
    found it. *)
Lemma os_path_exists_run (path : string) (w : World) :
  os_path_exists path w =
  (Returned (match (stat_fs (platform w) path (next_files w)).1 with
             | Returned _ => true
             | Raised _ => false
             end),
   after_call (sys_stat path) (next_files w) w).
Proof.
  unfold os_path_exists, try_except, os_stat, gets.
  unfold mbind, M_bind, mret, M_ret. rewrite system_call_run.
  rewrite stat_fs_keeps.
  destruct (stat_fs (platform w) path (next_files w)).1; reflexivity.
Qed.

(** For the path logs the check answers whether [stat] resolves what is
    there. *)
Lemma exists_logs_run (w : World) :
  os_path_exists "logs" w =
  (Returned (found (entries (next_files w) !! "logs")),
   after_call (sys_stat "logs") (next_files w) w).
Proof.
  rewrite os_path_exists_run. unfold stat_fs. rewrite entry_key_logs.
  change (node_at (next_files w) "logs") with (entries (next_files w) !! "logs").
  destruct (entries (next_files w) !! "logs") as [[]|]; reflexivity.
Qed.

Lemma mkdir_fs_logs (o : os_name) (fs : FS) :
  mkdir_fs o "logs" fs =
  match entries fs !! "logs" with
  | Some Inaccessible => (Raised PermissionError, fs)
  | Some _ => (Raised FileExistsError, fs)
  | None =>
      if cwd_writable fs then (Returned tt, with_directory "logs" fs)
      else (Raised PermissionError, fs)
  end.
Proof.
  unfold mkdir_fs. rewrite entry_key_logs, split_logs. cbn [fst pystr.is_empty].
  cbv zeta.
  change (node_at fs "logs") with (entries fs !! "logs").
  destruct (entries fs !! "logs") as [[]|]; reflexivity.
Qed.

Lemma mkdir_logs_run (w : World) :
  os_mkdir "logs" w =
  let fs := next_files w in
  match entries fs !! "logs" with
  | Some Inaccessible =>
      (Raised PermissionError, after_call (sys_mkdir "logs") fs w)
  | Some _ => (Raised FileExistsError, after_call (sys_mkdir "logs") fs w)
  | None =>
      if cwd_writable fs
      then (Returned tt, after_call (sys_mkdir "logs") (with_directory "logs" fs) w)
      else (Raised PermissionError, after_call (sys_mkdir "logs") fs w)
  end.
Proof.
  unfold os_mkdir, gets, mbind, M_bind. rewrite system_call_run.
  rewrite mkdir_fs_logs. cbv zeta.
  destruct (entries (next_files w) !! "logs") as [[]|];
    [..|destruct (cwd_writable (next_files w))]; reflexivity.
Qed.

(** The name [logs] has no directory part: [os.makedirs] is one [mkdir]. *)
Lemma makedirs_logs_run (w : World) : os_makedirs "logs" w = os_mkdir "logs" w.
Proof.
  unfold os_makedirs, gets, recursion_limit. unfold mbind at 1, M_bind.
  cbn [makedirs_depth]. rewrite split_logs. reflexivity.
Qed.

(** Lines 15 to 17: the check, and the creation when the check finds
    nothing. *)
Lemma ensure_log_directory_run (w : World) :
  ensure_log_directory "logs" w =
  let w2 := after_call (sys_stat "logs") (next_files w) w in
  if found (entries (next_files w) !! "logs") then (Returned tt, w2)
  else os_mkdir "logs" w2.
Proof.
  unfold ensure_log_directory.
  rewrite (bind_returned _ _ _ _ _ (exists_logs_run w)). cbv zeta.
  destruct (found (entries (next_files w) !! "logs")); [reflexivity|].
  cbn [negb]. apply makedirs_logs_run.
Qed.

(** The module returns the settings, or raises what [ensure_log_directory]
    raises. *)
Lemma config_py_run (w : World) (cfg : Config) (w1 : World) :
  settings w = (Returned cfg, w1) ->
  config_py w =
  match ensure_log_directory (LOG_DIR cfg) w1 with
  | (Returned _, w') => (Returned cfg, w')
  | (Raised e, w') => (Raised e, w')
  end.
Proof.
  intros Hs. unfold config_py. rewrite (bind_returned _ _ _ _ _ Hs).
  unfold mbind, M_bind, mret, M_ret.
  destruct (ensure_log_directory (LOG_DIR cfg) w1) as [[[]|e] w']; reflexivity.
Qed.

Lemma settings_returns (w : World) :
  exists cfg, settings w = (Returned cfg, with_environ (environ_after_dotenv w) w).
Proof. eexists. apply settings_run. Qed.

(** What the module returns is what the settings computed. *)
Lemma config_py_returns_settings (w w1 w' : World) (cfg cfg' : Config) :
  settings w = (Returned cfg, w1) ->
  config_py w = (Returned cfg', w') ->
  cfg' = cfg.
Proof.
  intros Hs Hc. rewrite (config_py_run _ _ _ Hs) in Hc.
  destruct (ensure_log_directory (LOG_DIR cfg) w1) as [[[]|e] w2];
    congruence.
Qed.

(** ** The claims about the settings *)

(** C1: the test-network flag is an exact, case-sensitive comparison with
    the literal True.  [TESTNET] is true exactly when the variable TESTNET
    of the environment (as [load_dotenv] leaves it) is the string True or
    is not set, and false for every other string, the lower-case true
    included; [FUTURES_BASE_URL] is the test-network endpoint when the
    flag is true and the production endpoint when it is false. *)
Theorem testnet_flag_exact_match (w : World) :
  exists cfg w1,
    settings w = (Returned cfg, w1)
    /\ environ w1 = environ_after_dotenv w
    /\ (TESTNET cfg = true <->
        environ w1 !! "TESTNET" = Some "True" \/ environ w1 !! "TESTNET" = None)
    /\ (forall v, environ w1 !! "TESTNET" = Some v -> v <> "True" -> TESTNET cfg = false)
    /\ (environ w1 !! "TESTNET" = Some "true" -> TESTNET cfg = false)
    /\ (forall v, environ w !! "TESTNET" = Some v -> TESTNET cfg = String.eqb v "True")
    /\ (dotenv_file w = None -> environ w !! "TESTNET" = None -> TESTNET cfg = true)
    /\ FUTURES_BASE_URL cfg =
         (if TESTNET cfg then "https://testnet.binancefuture.com"
          else "https://fapi.binance.com")
    /\ (forall cfg' w', config_py w = (Returned cfg', w') -> cfg' = cfg).
Proof.
  pose proof (settings_run w) as Hs. cbv zeta in Hs.
  eexists _, _. split; [exact Hs|]. split; [reflexivity|].
  cbn [environ with_environ TESTNET FUTURES_BASE_URL].
  assert (Hother : forall v, environ_after_dotenv w !! "TESTNET" = Some v ->
                             v <> "True" ->
                             match environ_after_dotenv w !! "TESTNET" with
                             | Some v => String.eqb v "True"
                             | None => true
                             end = false).
  { intros v Hv Hne. rewrite Hv. now apply String.eqb_neq. }
  repeat split.
  - destruct (environ_after_dotenv w !! "TESTNET") as [v|]; [|now right].
    intros Heq. apply String.eqb_eq in Heq. subst v. now left.
  - intros [Hv|Hv]; rewrite Hv; reflexivity.
  - exact Hother.
  - intros Hv. now apply (Hother "true").
  - intros v Hv. now rewrite (environ_after_dotenv_keeps _ _ _ Hv).
  - intros Hfile Hv. unfold environ_after_dotenv. now rewrite Hfile, Hv.
  - intros cfg' w' Hc. exact (config_py_returns_settings _ _ _ _ _ Hs Hc).
Qed.

(** C4: in every world [FUTURES_BASE_URL] is exactly one of the two
    literals, the test-network endpoint or the production endpoint, as the
    flag says; it is a string, it is not empty, and nothing of the
    environment is in it. *)
Theorem base_url_is_one_of_two (w : World) :
  exists cfg w1,
    settings w = (Returned cfg, w1)
    /\ (FUTURES_BASE_URL cfg = "https://testnet.binancefuture.com"
        /\ FUTURES_BASE_URL cfg <> "https://fapi.binance.com"
        /\ TESTNET cfg = true
        \/ FUTURES_BASE_URL cfg = "https://fapi.binance.com"
           /\ FUTURES_BASE_URL cfg <> "https://testnet.binancefuture.com"
           /\ TESTNET cfg = false)
    /\ FUTURES_BASE_URL cfg <> ""
    /\ (forall cfg' w', config_py w = (Returned cfg', w') -> cfg' = cfg).
Proof.
  pose proof (settings_run w) as Hs. cbv zeta in Hs.
  eexists _, _. split; [exact Hs|].
  cbn [TESTNET FUTURES_BASE_URL].
  split; [|split].
  - destruct (match environ_after_dotenv w !! "TESTNET" with
              | Some v => String.eqb v "True"
              | None => true
              end); [left|right]; repeat split; discriminate.
  - destruct (match environ_after_dotenv w !! "TESTNET" with
              | Some v => String.eqb v "True"
              | None => true
              end); discriminate.
  - intros cfg' w' Hc. exact (config_py_returns_settings _ _ _ _ _ Hs Hc).
Qed.

(** C5: [BINANCE_API_KEY] and [BINANCE_API_SECRET] are what the
    environment holds under these names: [None] when the variable is not
    set (neither an empty string nor an exception), and the value itself,
    unmodified, when it is set. *)
Theorem credentials_as_given (w : World) :
  exists cfg w1,
    settings w = (Returned cfg, w1)
    /\ environ w1 = environ_after_dotenv w
    /\ BINANCE_API_KEY cfg = environ w1 !! "BINANCE_API_KEY"
    /\ BINANCE_API_SECRET cfg = environ w1 !! "BINANCE_API_SECRET"
    /\ (forall v, environ w !! "BINANCE_API_KEY" = Some v ->
                  BINANCE_API_KEY cfg = Some v)
    /\ (forall v, environ w !! "BINANCE_API_SECRET" = Some v ->
                  BINANCE_API_SECRET cfg = Some v)
    /\ (dotenv_file w = None -> environ w !! "BINANCE_API_KEY" = None ->
        BINANCE_API_KEY cfg = None)
    /\ (dotenv_file w = None -> environ w !! "BINANCE_API_SECRET" = None ->
        BINANCE_API_SECRET cfg = None)
    /\ (forall cfg' w', config_py w = (Returned cfg', w') -> cfg' = cfg).
Proof.
  pose proof (settings_run w) as Hs. cbv zeta in Hs.
  eexists _, _. split; [exact Hs|]. split; [reflexivity|].
  cbn [environ with_environ BINANCE_API_KEY BINANCE_API_SECRET].
  assert (Hkeep : forall key v, environ w !! key = Some v ->
                                environ_after_dotenv w !! key = Some v).
  { intros key v Hv. unfold environ_after_dotenv.
    destruct (dotenv_file w) as [kvs|]; [now apply dotenv_keeps|exact Hv]. }
  assert (Hnone : forall key, dotenv_file w = None -> environ w !! key = None ->
                              environ_after_dotenv w !! key = None).
  { intros key Hfile Hv. unfold environ_after_dotenv. now rewrite Hfile. }
  repeat split; auto.
  intros cfg' w' Hc. exact (config_py_returns_settings _ _ _ _ _ Hs Hc).
Qed.

(** C10: a variable set to the empty string is set.  With
    BINANCE_API_KEY or BINANCE_API_SECRET set to the empty string the
    field is the empty string, not [None]; with TESTNET set to the empty
    string the default True is not used: the flag is false and the URL is
    the production endpoint. *)
Theorem empty_string_is_not_unset (w : World) :
  (exists cfg w1,
      settings (with_environ (<["BINANCE_API_KEY" := ""]> (environ w)) w)
      = (Returned cfg, w1)
      /\ BINANCE_API_KEY cfg = Some "")
  /\ (exists cfg w1,
         settings (with_environ (<["BINANCE_API_SECRET" := ""]> (environ w)) w)
         = (Returned cfg, w1)
         /\ BINANCE_API_SECRET cfg = Some "")
  /\ (exists cfg w1,
         settings (with_environ (<["TESTNET" := ""]> (environ w)) w)
         = (Returned cfg, w1)
         /\ TESTNET cfg = false
         /\ FUTURES_BASE_URL cfg = "https://fapi.binance.com").
Proof.
  assert (Hset : forall key, environ_after_dotenv
                               (with_environ (<[key := ""]> (environ w)) w) !! key
                             = Some "").
  { intros key. unfold environ_after_dotenv. cbn [dotenv_file environ platform with_environ].
    destruct (dotenv_file w) as [kvs|].
    - apply dotenv_keeps, lookup_insert_eq.
    - apply lookup_insert_eq. }
  repeat split.
  - eexists _, _. split; [apply settings_run|]. cbn [BINANCE_API_KEY]. apply Hset.
  - eexists _, _. split; [apply settings_run|]. cbn [BINANCE_API_SECRET]. apply Hset.
  - eexists _, _. split; [apply settings_run|]. cbn [TESTNET FUTURES_BASE_URL].
    rewrite Hset. split; reflexivity.
Qed.

(** ** The log paths *)

(** C6, as the code has it: [LOG_DIR] is the literal logs and [LOG_FILE]
    is [os.path.join(LOG_DIR, "bot.log")], whatever the environment
    variables are; the join puts the separator of the platform between
    the two, so the path is logs/bot.log where [os.path] is [posixpath],
    and logs, a backslash, bot.log where it is [ntpath]. *)
Theorem log_file_is_joined (w : World) :
  exists cfg w1,
    settings w = (Returned cfg, w1)
    /\ LOG_DIR cfg = "logs"
    /\ LOG_FILE cfg = os_path_join_on (platform w) (LOG_DIR cfg) "bot.log"
    /\ LOG_FILE cfg = match platform w with
                      | posix => "logs/bot.log"
                      | nt => "logs" ++ String pystr.bslash "bot.log"
                      end
    /\ (forall cfg' w', config_py w = (Returned cfg', w') -> cfg' = cfg).
Proof.
  pose proof (settings_run w) as Hs. cbv zeta in Hs.
  eexists _, _. split; [exact Hs|]. cbn [LOG_DIR LOG_FILE].
  split; [reflexivity|]. split; [reflexivity|]. split.
  - destruct (platform w); reflexivity.
  - intros cfg' w' Hc. exact (config_py_returns_settings _ _ _ _ _ Hs Hc).
Qed.

(** C6 as stated fails where [os.path] is [ntpath]: with an empty
    environment the module returns, and [LOG_FILE] is not logs/bot.log. *)
Lemma log_file_on_windows :
  exists cfg w',
    config_py (fresh_world nt ∅ empty_fs) = (Returned cfg, w')
    /\ LOG_DIR cfg = "logs"
    /\ LOG_FILE cfg <> "logs/bot.log".
Proof.
  eexists _, _. split; [vm_compute; reflexivity|].
  split; [reflexivity|]. cbn [LOG_FILE]. discriminate.
Qed.

(** ** The log directory *)

(** The module raises nothing before line 16, and the world it reaches
    there differs from the first in the environment only. *)
Lemma config_py_cases (w : World) :
  exists cfg,
    settings w = (Returned cfg, with_environ (environ_after_dotenv w) w)
    /\ LOG_DIR cfg = "logs"
    /\ config_py w =
       match ensure_log_directory "logs" (with_environ (environ_after_dotenv w) w) with
       | (Returned _, w') => (Returned cfg, w')
       | (Raised e, w') => (Raised e, w')
       end.
Proof.
  pose proof (settings_run w) as Hs. cbv zeta in Hs.
  eexists. split; [exact Hs|]. split; [reflexivity|].
  exact (config_py_run _ _ _ Hs).
Qed.

Lemma os_mkdir_run (path : string) (w : World) :
  os_mkdir path w =
  ((mkdir_fs (platform w) path (next_files w)).1,
   after_call (sys_mkdir path) (mkdir_fs (platform w) path (next_files w)).2 w).
Proof. unfold os_mkdir, gets, mbind, M_bind. apply system_call_run. Qed.

(** The module from line 16 on, in one piece. *)
Lemma config_py_shape (w : World) :
  exists cfg,
    settings w = (Returned cfg, with_environ (environ_after_dotenv w) w)
    /\ LOG_DIR cfg = "logs"
    /\ config_py w =
       let w2 := after_call (sys_stat "logs") (next_files w)
                   (with_environ (environ_after_dotenv w) w) in
       if found (entries (next_files w) !! "logs") then (Returned cfg, w2)
       else
         match mkdir_fs (platform w) "logs" (next_files w2) with
         | (Returned _, fs') => (Returned cfg, after_call (sys_mkdir "logs") fs' w2)
         | (Raised e, fs') => (Raised e, after_call (sys_mkdir "logs") fs' w2)
         end.
Proof.
  destruct (config_py_cases w) as (cfg & Hs & Hdir & Hc).
  exists cfg. split; [exact Hs|]. split; [exact Hdir|].
  rewrite Hc, ensure_log_directory_run. cbv zeta.
  change (next_files (with_environ (environ_after_dotenv w) w)) with (next_files w).
  destruct (found (entries (next_files w) !! "logs")); [reflexivity|].
  rewrite os_mkdir_run. cbn [platform after_call with_environ].
  destruct (mkdir_fs (platform w) "logs" _) as [[[]|e] fs']; reflexivity.
Qed.



(** ** What can raise *)

(** Lines 6 to 13 return in every world, with what the environment holds. *)
Lemma read_settings_run (w : World) :
  exists cfg, read_settings w = (Returned cfg, w) /\ LOG_DIR cfg = "logs".
Proof.
  unfold read_settings, os_getenv, os_path_join, gets.
  unfold mbind, M_bind, mret, M_ret.
  eexists. split; reflexivity.
Qed.

(** A store changes [os.environ] and nothing else. *)
Lemma store_entries_run (d : list (string * option string)) :
  forall (w w' : World) (r : outcome unit),
    store_entries d w = (r, w') ->
    exists env', w' = with_environ env' w
                 /\ (r = Returned tt ->
                     env' = set_as_environment_variables (platform w) d (environ w)).
Proof.
  induction d as [|[k v] d IH]; intros w w' r Hrun.
  - injection Hrun as <- <-. exists (environ w). split; [now destruct w|reflexivity].
  - cbn [store_entries set_as_environment_variables] in *.
    unfold gets in Hrun. unfold mbind at 1 2, M_bind in Hrun.
    destruct (environ w !! encodekey (platform w) k) eqn:Hk; [now apply IH|].
    destruct v as [s|]; [|now apply IH].
    unfold mbind, M_bind, environ_setitem in Hrun.
    destruct (putenv_error (platform w) (encodekey (platform w) k) s).
    + injection Hrun as <- <-. exists (environ w).
      split; [now destruct w|discriminate].
    + apply IH in Hrun as (env' & -> & Henv).
      exists env'. split; [reflexivity|exact Henv].
Qed.

(** Line 4 changes [os.environ] and nothing else, whether it returns or
    raises. *)
Lemma load_dotenv_from_run (src : dotenv_source) (w w' : World) (r : outcome unit) :
  load_dotenv_from src w = (r, w') ->
  exists env', w' = with_environ env' w.
Proof.
  destruct src as [|e|bindings]; cbn [load_dotenv_from].
  - intros H. injection H as <- <-. exists (environ w). now destruct w.
  - intros H. injection H as <- <-. exists (environ w). now destruct w.
  - intros H. apply store_entries_run in H as (env' & -> & _). now exists env'.
Qed.

(** When line 4 returns, the module with line 4 in full does what
    [config_py] does in the world that holds the file. *)
Lemma config_py_from_agrees (w w0 : World) :
  load_dotenv_from (source_of w) w = (Returned tt, w0) ->
  config_py_from (source_of w) w = config_py w.
Proof.
  intros Hload.
  assert (Hw0 : w0 = with_environ (environ_after_dotenv w) w).
  { unfold source_of, environ_after_dotenv in *.
    destruct (dotenv_file w) as [bindings|]; cbn [load_dotenv_from] in Hload.
    - apply store_entries_run in Hload as (env' & -> & Henv).
      now rewrite (Henv eq_refl).
    - injection Hload as <-. now destruct w. }
  unfold config_py_from, config_py.
  rewrite (bind_returned _ _ _ _ _ Hload).
  change settings with (load_dotenv;; read_settings).
  unfold load_dotenv at 1, modify. unfold mbind at 3 4, M_bind.
  now rewrite Hw0.
Qed.

(** The module with line 4 in full, from line 6 on. *)
Lemma config_py_from_run (src : dotenv_source) (w w0 : World) :
  load_dotenv_from src w = (Returned tt, w0) ->
  exists cfg,
    read_settings w0 = (Returned cfg, w0)
    /\ LOG_DIR cfg = "logs"
    /\ config_py_from src w =
       match ensure_log_directory "logs" w0 with
       | (Returned _, w') => (Returned cfg, w')
       | (Raised e, w') => (Raised e, w')
       end.
Proof.
  intros Hload.
  destruct (read_settings_run w0) as (cfg & Hs & Hdir).
  exists cfg. split; [exact Hs|]. split; [exact Hdir|].
  unfold config_py_from.
  rewrite (bind_returned _ _ _ _ _ Hload), (bind_returned _ _ _ _ _ Hs), Hdir.
  unfold mbind, M_bind, mret, M_ret.
  destruct (ensure_log_directory "logs" w0) as [[[]|e] w']; reflexivity.
Qed.

(** Line 16 on, given what the check found. *)
Lemma ensure_log_directory_after_check (path : string) (w w2 : World) (b : bool) :
  os_path_exists path w = (Returned b, w2) ->
  ensure_log_directory path w
  = if b then (Returned tt, w2) else os_makedirs path w2.
Proof.
  intros Hb. unfold ensure_log_directory. rewrite (bind_returned _ _ _ _ _ Hb).
  destruct b; reflexivity.
Qed.

(** C3, as the code has it: two steps of the module can raise, line 4
    and the creation of the directory.  When [load_dotenv()] raises (the
    file cannot be read or decoded, or [os.environ] refuses an entry),
    the module raises that exception and has not touched the filesystem.
    When it returns, lines 6 to 13 and the existence check return, and
    the module raises an exception exactly when the check found nothing
    and [os.makedirs] raises, and then it raises that same exception, in
    the world [os.makedirs] left; a working directory that is not
    writable gives [PermissionError]. *)
Theorem failures_are_line_4_or_creation (src : dotenv_source) (w : World) :
  (forall e w', load_dotenv_from src w = (Raised e, w') ->
                config_py_from src w = (Raised e, w')
                /\ files w' = files w /\ trace w' = trace w)
  /\ (forall w0, load_dotenv_from src w = (Returned tt, w0) ->
        exists cfg b w2,
          read_settings w0 = (Returned cfg, w0)
          /\ os_path_exists (LOG_DIR cfg) w0 = (Returned b, w2)
          /\ (b = true -> config_py_from src w = (Returned cfg, w2))
          /\ (forall e w', config_py_from src w = (Raised e, w') <->
                           b = false /\ os_makedirs (LOG_DIR cfg) w2 = (Raised e, w'))
          /\ (b = false ->
              entries (next_files w2) !! "logs" = None ->
              cwd_writable (next_files w2) = false ->
              exists w', config_py_from src w = (Raised PermissionError, w')))
  /\ (forall e w', config_py_from src w = (Raised e, w') ->
        load_dotenv_from src w = (Raised e, w')
        \/ exists w2, os_makedirs "logs" w2 = (Raised e, w')).
Proof.
  assert (Hfirst : forall e w', load_dotenv_from src w = (Raised e, w') ->
                                config_py_from src w = (Raised e, w')).
  { intros e w' Hload. unfold config_py_from. now apply bind_raised. }
  assert (Hsecond : forall w0, load_dotenv_from src w = (Returned tt, w0) ->
    exists cfg b w2,
      read_settings w0 = (Returned cfg, w0)
      /\ os_path_exists (LOG_DIR cfg) w0 = (Returned b, w2)
      /\ (b = true -> config_py_from src w = (Returned cfg, w2))
      /\ (forall e w', config_py_from src w = (Raised e, w') <->
                       b = false /\ os_makedirs (LOG_DIR cfg) w2 = (Raised e, w'))
      /\ (b = false ->
          entries (next_files w2) !! "logs" = None ->
          cwd_writable (next_files w2) = false ->
          exists w', config_py_from src w = (Raised PermissionError, w'))).
  { intros w0 Hload.
    destruct (config_py_from_run _ _ _ Hload) as (cfg & Hs & Hdir & Hc).
    pose proof (exists_logs_run w0) as Hb.
    eexists cfg, _, _. split; [exact Hs|]. rewrite Hdir.
    split; [exact Hb|].
    rewrite (ensure_log_directory_after_check _ _ _ _ Hb) in Hc.
    destruct (found (entries (next_files w0) !! "logs")).
    - split; [intros _; exact Hc|]. split; [|discriminate].
      intros e w'. rewrite Hc. split; [discriminate|]. intros [? _]. discriminate.
    - split; [discriminate|]. split.
      + intros e w'. rewrite Hc.
        destruct (os_makedirs "logs" _) as [[[]|e0] w3]; split.
        * discriminate.
        * intros [_ ?]. discriminate.
        * intros H. inversion H. split; reflexivity.
        * intros [_ H]. inversion H. reflexivity.
      + intros _ Hfree Hwrite. rewrite Hc, makedirs_logs_run, mkdir_logs_run.
        cbv zeta. rewrite Hfree, Hwrite. eexists. reflexivity. }
  split; [|split; [exact Hsecond|]].
  - intros e w' Hload. split; [now apply Hfirst|].
    apply load_dotenv_from_run in Hload as (env' & ->). split; reflexivity.
  - intros e w' Hraised.
    destruct (load_dotenv_from src w) as [[[]|e0] w0] eqn:Hload.
    + right. destruct (Hsecond w0 eq_refl) as (cfg & b & w2 & Hs & _ & _ & Hiff & _).
      destruct (proj1 (Hiff e w') Hraised) as [_ Hmk].
      destruct (read_settings_run w0) as (cfg0 & Hs0 & Hdir0).
      assert (Hcfg : cfg = cfg0) by congruence.
      rewrite Hcfg, Hdir0 in Hmk. now exists w2.
    + left. rewrite (Hfirst _ _ eq_refl) in Hraised. inversion Hraised. reflexivity.
Qed.

(** C3 as stated fails: with a NUL in a value of the [.env] file the
    module raises [ValueError] at line 4, no system call of lines 16 and
    17 issued and the filesystem as it was. *)
Lemma line_4_raises :
  exists w',
    config_py_from nul_source (fresh_world posix ∅ empty_fs)
    = (Raised ValueError, w')
    /\ trace w' = []
    /\ files w' = empty_fs.
Proof.
  eexists. split; [vm_compute; reflexivity|]. split; reflexivity.
Qed.

(** ** What the check finds *)

(** C7 fails on a regular file named logs: the module returns, one
    [stat] is all it issued, and the path still names the regular file,
    not a directory. *)
Lemma regular_file_in_the_way :
  exists cfg w',
    config_py file_world = (Returned cfg, w')
    /\ trace w' = [sys_stat "logs"]
    /\ entries (files w') !! "logs" = Some RegularFile.
Proof.
  eexists _, _. split; [vm_compute; reflexivity|]. split; reflexivity.
Qed.

(** C9, as the code has it: the check does not tell a directory from
    any other entry that [os.stat] resolves.  When a directory, a regular
    file or any other such entry is at the path logs, the module issues
    the [stat] and no [mkdir], raises nothing, and leaves the filesystem
    as the check found it; what was at the path is still there, so a
    regular file leaves the module without a log directory.  An entry
    that [os.stat] does not resolve, a broken link or an entry out of
    reach, counts as missing: the [mkdir] is issued. *)
Theorem existing_entry_skips_creation (w : World) (n : node) :
  entries (next_files w) !! "logs" = Some n ->
  if resolves n
  then exists cfg w',
         config_py w = (Returned cfg, w')
         /\ trace w' = (trace w ++ [sys_stat "logs"])%list
         /\ files w' = next_files w
         /\ entries (files w') !! "logs" = Some n
         /\ ((forall b, n <> Directory b) ->
             forall b, entries (files w') !! "logs" <> Some (Directory b))
  else trace (config_py w).2
       = (trace w ++ [sys_stat "logs"; sys_mkdir "logs"])%list.
Proof.
  intros Hn.
  destruct (config_py_shape w) as (cfg & Hs & Hdir & Hc). cbv zeta in Hc.
  rewrite Hn in Hc. cbn [found] in Hc.
  destruct (resolves n).
  - eexists _, _. split; [exact Hc|]. cbn [trace files after_call with_environ].
    split; [reflexivity|]. split; [reflexivity|]. split; [exact Hn|].
    intros Hnot b. rewrite Hn. intros H. injection H as ->. now apply (Hnot b).
  - rewrite Hc.
    destruct (mkdir_fs (platform w) "logs" _) as [[[]|e] fs'];
      cbn [snd trace after_call with_environ]; now rewrite <- app_assoc.
Qed.

Lemma existing_entry_skips_creation_witness :
  (entries (next_files file_world) !! "logs" = Some RegularFile
   /\ exists cfg w',
        config_py file_world = (Returned cfg, w')
        /\ trace w' = (trace file_world ++ [sys_stat "logs"])%list
        /\ files w' = next_files file_world
        /\ entries (files w') !! "logs" = Some RegularFile
        /\ ((forall b, RegularFile <> Directory b) ->
            forall b, entries (files w') !! "logs" <> Some (Directory b)))
  /\ (entries (next_files link_world) !! "logs" = Some BrokenLink
      /\ trace (config_py link_world).2
         = (trace link_world ++ [sys_stat "logs"; sys_mkdir "logs"])%list).
Proof.
  split; (split; [reflexivity|]).
  - exact (existing_entry_skips_creation file_world RegularFile eq_refl).
  - exact (existing_entry_skips_creation link_world BrokenLink eq_refl).
Defined.

(** C9 as stated fails on a broken link named logs: an entry is at the
    path, the check does not find it, the [mkdir] is issued and raises
    [FileExistsError], and the module raises it. *)
Lemma broken_link_is_not_found :
  entries (files link_world) !! "logs" = Some BrokenLink
  /\ exists w',
       config_py link_world = (Raised FileExistsError, w')
       /\ trace w' = [sys_stat "logs"; sys_mkdir "logs"]
       /\ entries (files w') !! "logs" = Some BrokenLink.
Proof.
  split; [reflexivity|].
  eexists. split; [vm_compute; reflexivity|]. split; reflexivity.
Qed.

(** ** Loading again *)

(** The module changes [os.environ] through [load_dotenv] only. *)
Lemma config_py_environ (w w' : World) (r : outcome Config) :
  config_py w = (r, w') ->
  environ w' = environ_after_dotenv w
  /\ platform w' = platform w
  /\ dotenv_file w' = dotenv_file w.
Proof.
  destruct (config_py_shape w) as (cfg & Hs & Hdir & Hc). cbv zeta in Hc.
  rewrite Hc. clear Hc.
  destruct (found (entries (next_files w) !! "logs")).
  - intros H. inversion H. repeat split.
  - destruct (mkdir_fs (platform w) "logs" _) as [[[]|e] fs'];
      intros H; inversion H; repeat split.
Qed.

(** C8: loading is idempotent.  When the module has returned a
    configuration, and it is run again on the same platform with the same
    [.env] file, with the environment as it was before the first run or
    as the first run left it, and with the log directory in place, then
    the second run raises nothing, returns the same configuration, and
    leaves the filesystem as it found it. *)
Theorem loading_twice (w w' w2 : World) (cfg : Config) (b : bool) :
  config_py w = (Returned cfg, w') ->
  platform w2 = platform w ->
  dotenv_file w2 = dotenv_file w ->
  environ w2 = environ w \/ environ w2 = environ w' ->
  entries (next_files w2) !! "logs" = Some (Directory b) ->
  exists w'',
    config_py w2 = (Returned cfg, w'')
    /\ files w'' = next_files w2
    /\ trace w'' = (trace w2 ++ [sys_stat "logs"])%list.
Proof.
  intros Hfirst Hplat Hfile Henv Hdir.
  assert (Hsame : environ_after_dotenv w2 = environ_after_dotenv w).
  { unfold environ_after_dotenv. rewrite Hfile, Hplat.
    destruct Henv as [->| ->]; [reflexivity|].
    destruct (config_py_environ _ _ _ Hfirst) as (-> & _ & _).
    unfold environ_after_dotenv.
    destruct (dotenv_file w) as [bindings|]; [apply dotenv_idempotent|reflexivity]. }
  pose proof (settings_run w) as Hs. cbv zeta in Hs.
  pose proof (config_py_returns_settings _ _ _ _ _ Hs Hfirst) as Hcfg.
  pose proof (settings_run w2) as Hs2. cbv zeta in Hs2.
  rewrite Hsame, Hplat in Hs2. rewrite <- Hcfg in Hs2.
  pose proof (config_py_run _ _ _ Hs2) as Hc.
  replace (LOG_DIR cfg) with "logs" in Hc by (rewrite Hcfg; reflexivity).
  rewrite ensure_log_directory_run in Hc. cbv zeta in Hc.
  change (next_files (with_environ (environ_after_dotenv w) w2))
    with (next_files w2) in Hc.
  rewrite Hdir in Hc. cbn [found resolves] in Hc.
  eexists. split; [exact Hc|]. split; reflexivity.
Qed.

Lemma loading_twice_witness :
  config_py first_world = (Returned first_config, second_world)
  /\ entries (next_files second_world) !! "logs" = Some (Directory true)
  /\ exists w'',
       config_py second_world = (Returned first_config, w'')
       /\ files w'' = next_files second_world
       /\ trace w'' = (trace second_world ++ [sys_stat "logs"])%list.
Proof.
  assert (Hfirst : config_py first_world = (Returned first_config, second_world))
    by (vm_compute; reflexivity).
  split; [exact Hfirst|]. split; [reflexivity|].
  apply (loading_twice first_world second_world second_world first_config true Hfirst).
  - reflexivity.
  - reflexivity.
  - right. reflexivity.
  - reflexivity.
Defined.

(** X1: the part of C7 that holds.  When the module returns and the
    check found the path logs free, or holding a directory, the path
    names a directory afterwards. *)
Theorem log_directory_exists_unless_file (w w' : World) (cfg : Config) :
  config_py w = (Returned cfg, w') ->
  entries (next_files w) !! "logs" = None
  \/ (exists b, entries (next_files w) !! "logs" = Some (Directory b)) ->
  exists b, entries (files w') !! "logs" = Some (Directory b).
Proof.
  intros Hret Hcheck.
  destruct (config_py_shape w) as (cfg0 & _ & _ & Hc). cbv zeta in Hc.
  rewrite Hc in Hret. clear Hc.
  destruct Hcheck as [Hfree|[b Hdir]].
  - rewrite Hfree in Hret. cbn [found] in Hret.
    rewrite mkdir_fs_logs in Hret.
    match type of Hret with
    | context [entries ?fs !! "logs"] => destruct (entries fs !! "logs") as [[]|]
    end; try discriminate.
    match type of Hret with
    | context [cwd_writable ?fs] => destruct (cwd_writable fs)
    end; [|discriminate].
    inversion Hret. exists true. apply lookup_insert_eq.
  - rewrite Hdir in Hret. cbn [found resolves] in Hret.
    inversion Hret. exists b. exact Hdir.
Qed.

Lemma log_directory_exists_unless_file_witness :
  config_py first_world = (Returned first_config, second_world)
  /\ (entries (next_files first_world) !! "logs" = None
      \/ (exists b, entries (next_files first_world) !! "logs" = Some (Directory b)))
  /\ exists b, entries (files second_world) !! "logs" = Some (Directory b).
Proof.
  assert (Hfirst : config_py first_world = (Returned first_config, second_world))
    by (vm_compute; reflexivity).
  assert (Hfree : entries (next_files first_world) !! "logs" = None
                  \/ (exists b, entries (next_files first_world) !! "logs"
                                 = Some (Directory b)))
    by (left; reflexivity).
  split; [exact Hfirst|]. split; [exact Hfree|].
  exact (log_directory_exists_unless_file first_world second_world first_config
           Hfirst Hfree).
Defined.

(** ** The path functions on sample paths

    The values are those of CPython 3.11. *)

Example posix_join_logs : posixpath.join "logs" "bot.log" = "logs/bot.log".
Proof. reflexivity. Qed.
Example posix_join_abs : posixpath.join "logs" "/x" = "/x".
Proof. reflexivity. Qed.
Example posix_join_slash : posixpath.join "logs/" "x" = "logs/x".
Proof. reflexivity. Qed.
Example posix_split1 : posixpath.split "a/b/c" = ("a/b", "c").
Proof. reflexivity. Qed.
Example posix_split2 : posixpath.split "logs" = ("", "logs").
Proof. reflexivity. Qed.
Example posix_split3 : posixpath.split "a//b/" = ("a//b", "").
Proof. reflexivity. Qed.
Example posix_split4 : posixpath.split "//x" = ("//", "x").
Proof. reflexivity. Qed.
Example nt_join_logs :
  ntpath.join "logs" "bot.log" = "logs" ++ String pystr.bslash "bot.log".
Proof. reflexivity. Qed.
Example nt_join_drive : ntpath.join "c:" "x" = "c:x".
Proof. reflexivity. Qed.
Example nt_join_drive2 : ntpath.join "c:/a" "D:b" = "D:b".
Proof. reflexivity. Qed.
Example nt_join_drive3 : ntpath.join "c:/a" "C:b" = "C:/a" ++ String pystr.bslash "b".
Proof. reflexivity. Qed.
Example nt_join_unc : ntpath.join "//h/s" "x" = "//h/s" ++ String pystr.bslash "x".
Proof. reflexivity. Qed.
Example nt_split1 : ntpath.split "c:/a/b" = ("c:/a", "b").
Proof. reflexivity. Qed.
Example nt_split2 : ntpath.split "logs" = ("", "logs").
Proof. reflexivity. Qed.
Example nt_split3 : ntpath.split "c:/" = ("c:/", "").
Proof. reflexivity. Qed.

(** [os.makedirs] makes the directories above the leaf too. *)
Example makedirs_makes_parents :
  exists w',
    os_makedirs "a/b/c" (fresh_world posix ∅ empty_fs) = (Returned tt, w')
    /\ trace w' = [sys_stat "a/b"; sys_stat "a"; sys_mkdir "a";
                   sys_mkdir "a/b"; sys_mkdir "a/b/c"]
    /\ entries (files w') !! "a" = Some (Directory true)
    /\ entries (files w') !! "a/b" = Some (Directory true)
    /\ entries (files w') !! "a/b/c" = Some (Directory true).
Proof.
  eexists. split; [vm_compute; reflexivity|]. repeat split.
Qed.

(** With nothing at the path and a writable working directory the module
    makes the directory. *)
Example first_run_makes_the_directory :
  trace second_world = [sys_stat "logs"; sys_mkdir "logs"]
  /\ entries (files second_world) !! "logs" = Some (Directory true).
Proof. split; reflexivity. Qed.

(** A path that ends in the working directory: the directories above it
    are made, and nothing for the dot. *)
Example makedirs_up_to_the_dot :
  exists w',
    os_makedirs "a/b/." (fresh_world posix ∅ empty_fs) = (Returned tt, w')
    /\ trace w' = [sys_stat "a/b"; sys_stat "a"; sys_mkdir "a"; sys_mkdir "a/b"].
Proof. eexists. split; [vm_compute; reflexivity|reflexivity]. Qed.

(** * Further properties of the module *)

(** ** Where a variable of the environment comes from *)

(** A variable that [load_dotenv] leaves in the environment was there
    before, or was not and is an entry of the file. *)
Lemma dotenv_origin (o : os_name) (kvs : list (string * option string))
    (env : gmap string string) (key value : string) :
  set_as_environment_variables o kvs env !! key = Some value ->
  env !! key = Some value
  \/ (env !! key = None
      /\ exists k, (k, Some value) ∈ kvs /\ encodekey o k = key).
Proof.
  revert env. induction kvs as [|[k v] kvs IH]; intros env Hafter; simpl in Hafter.
  - now left.
  - apply IH in Hafter.
    destruct (env !! encodekey o k) eqn:Hk.
    { destruct Hafter as [H|(Hnone & k' & Hin & Hk')]; [now left|right].
      split; [exact Hnone|]. exists k'. split; [now apply list_elem_of_further|exact Hk']. }
    destruct v as [s|].
    2:{ destruct Hafter as [H|(Hnone & k' & Hin & Hk')]; [now left|right].
        split; [exact Hnone|]. exists k'.
        split; [now apply list_elem_of_further|exact Hk']. }
    destruct (decide (encodekey o k = key)) as [Heq|Hne].
    + right. subst key. split; [exact Hk|].
      destruct Hafter as [H|[Hnone _]].
      * rewrite lookup_insert_eq in H. inversion H. subst s.
        exists k. split; [apply list_elem_of_here|reflexivity].
      * rewrite lookup_insert_eq in Hnone. discriminate.
    + rewrite lookup_insert_ne in Hafter by exact Hne.
      destruct Hafter as [H|(Hnone & k' & Hin & Hk')]; [now left|right].
      split; [exact Hnone|]. exists k'.
      split; [now apply list_elem_of_further|exact Hk'].
Qed.

Lemma environ_after_dotenv_origin (w : World) (key value : string) :
  environ_after_dotenv w !! key = Some value ->
  environ w !! key = Some value
  \/ (environ w !! key = None
      /\ exists kvs k, dotenv_file w = Some kvs
                       /\ (k, Some value) ∈ kvs
                       /\ encodekey (platform w) k = key).
Proof.
  unfold environ_after_dotenv. destruct (dotenv_file w) as [bindings|]; [|now left].
  intros H. apply dotenv_origin in H as [H|(Hnone & k & Hin & Hk)]; [now left|right].
  split; [exact Hnone|]. exists bindings, k.
  split; [reflexivity|]. split; [now apply dotenv_dict_elem|exact Hk].
Qed.

(** ** A process that runs alone *)

Lemma scheduled_alone (w : World) : others w = [] -> scheduled w = (files w, []).
Proof. unfold scheduled. intros ->. now destruct (trace w). Qed.

Lemma after_call_alone (c : syscall) (fs : FS) (w : World) :
  others w = [] -> others (after_call c fs w) = [].
Proof. intros H. unfold after_call. cbn [others]. now rewrite scheduled_alone. Qed.

(** The settings are the same in two worlds of one platform whose
    environments [load_dotenv] leaves the same. *)
Lemma settings_same (w w2 w1 : World) (cfg : Config) :
  platform w2 = platform w ->
  environ_after_dotenv w2 = environ_after_dotenv w ->
  settings w = (Returned cfg, w1) ->
  settings w2 = (Returned cfg, with_environ (environ_after_dotenv w2) w2).
Proof.
  intros Hplat Henv Hs.
  pose proof (settings_run w) as Hw. cbv zeta in Hw.
  pose proof (settings_run w2) as Hw2. cbv zeta in Hw2.
  rewrite Hs in Hw. inversion Hw as [[Hcfg Hw1]].
  rewrite Hw2. rewrite Henv at 1 2 3 4. rewrite Hplat. reflexivity.
Qed.

Lemma mkdir_fs_logs_cases (o : os_name) (fs : FS) :
  (mkdir_fs o "logs" fs = (Returned tt, with_directory "logs" fs)
   /\ entries fs !! "logs" = None)
  \/ exists e, mkdir_fs o "logs" fs = (Raised e, fs).
Proof.
  rewrite mkdir_fs_logs.
  destruct (entries fs !! "logs") as [[]|]; eauto.
  destruct (cwd_writable fs); eauto.
Qed.

(** The module in a process that runs alone: every call finds the
    filesystem as the process left it. *)
Lemma config_py_alone (w : World) :
  others w = [] ->
  exists cfg,
    settings w = (Returned cfg, with_environ (environ_after_dotenv w) w)
    /\ let w2 := after_call (sys_stat "logs") (files w)
                   (with_environ (environ_after_dotenv w) w) in
       config_py w =
       if found (entries (files w) !! "logs") then (Returned cfg, w2)
       else
         match mkdir_fs (platform w) "logs" (files w) with
         | (Returned _, fs') => (Returned cfg, after_call (sys_mkdir "logs") fs' w2)
         | (Raised e, fs') => (Raised e, after_call (sys_mkdir "logs") fs' w2)
         end.
Proof.
  intros Halone.
  destruct (config_py_shape w) as (cfg & Hs & _ & Hc). cbv zeta in Hc.
  exists cfg. split; [exact Hs|]. cbv zeta.
  rewrite Hc. rewrite (next_files_alone w Halone).
  rewrite next_files_alone; [reflexivity|]. apply after_call_alone. exact Halone.
Qed.

(** The three ways the module ends in a process that runs alone. *)
Lemma config_py_alone_cases (w w' : World) (r : outcome Config) :
  others w = [] ->
  config_py w = (r, w') ->
  exists cfg,
    settings w = (Returned cfg, with_environ (environ_after_dotenv w) w)
    /\ others w' = []
    /\ ((found (entries (files w) !! "logs") = true
         /\ r = Returned cfg /\ files w' = files w)
        \/ (found (entries (files w) !! "logs") = false
            /\ entries (files w) !! "logs" = None
            /\ r = Returned cfg /\ files w' = with_directory "logs" (files w))
        \/ (found (entries (files w) !! "logs") = false
            /\ exists e, mkdir_fs (platform w) "logs" (files w) = (Raised e, files w)
                         /\ r = Raised e /\ files w' = files w)).
Proof.
  intros Halone Hrun.
  destruct (config_py_alone w Halone) as (cfg & Hs & Hc). cbv zeta in Hc.
  exists cfg. split; [exact Hs|]. rewrite Hc in Hrun. clear Hc.
  destruct (found (entries (files w) !! "logs")) eqn:Hfound.
  - injection Hrun as <- <-. split; [now apply after_call_alone|].
    left. repeat split.
  - destruct (mkdir_fs_logs_cases (platform w) (files w)) as [[Hmk Hfree]|[e Hmk]];
      rewrite Hmk in Hrun; injection Hrun as <- <-;
      (split; [now repeat apply after_call_alone|]).
    + right. left. repeat split. exact Hfree.
    + right. right. split; [reflexivity|]. exists e. repeat split. exact Hmk.
Qed.

(** ** What the module does to the filesystem *)

(** X3: from line 16 on the module issues one [stat] of logs and,
    exactly when the check does not find the path, one [mkdir] of logs
    after it; it issues no other call there and tries nothing a second
    time. *)
Theorem system_call_footprint (w : World) :
  trace (ensure_log_directory "logs" w).2
  = if found (entries (next_files w) !! "logs")
    then (trace w ++ [sys_stat "logs"])%list
    else (trace w ++ [sys_stat "logs"; sys_mkdir "logs"])%list.
Proof.
  rewrite ensure_log_directory_run. cbv zeta.
  destruct (found (entries (next_files w) !! "logs")); [reflexivity|].
  rewrite os_mkdir_run. cbn [snd trace after_call]. now rewrite <- app_assoc.
Qed.

(** X4: in a process that runs alone the module leaves every entry of
    the filesystem as it is: no entry is removed or replaced, no path
    other than logs gets an entry, the working directory stays as
    writable as it was; and when the module raises, the filesystem is
    the one it started with. *)
Theorem filesystem_frame (w : World) :
  others w = [] ->
  cwd_writable (files (config_py w).2) = cwd_writable (files w)
  /\ (forall p, p <> "logs" ->
                entries (files (config_py w).2) !! p = entries (files w) !! p)
  /\ (forall p n, entries (files w) !! p = Some n ->
                  entries (files (config_py w).2) !! p = Some n)
  /\ (forall e, (config_py w).1 = Raised e -> files (config_py w).2 = files w).
Proof.
  intros Halone.
  destruct (config_py_alone_cases w _ _ Halone (surjective_pairing _))
    as (cfg & _ & _ & [(_ & Hr & Hf)|[(_ & Hfree & Hr & Hf)|(_ & e & _ & Hr & Hf)]]);
    rewrite Hf, Hr.
  - repeat split; auto.
  - cbn [with_directory entries cwd_writable].
    split; [reflexivity|]. split; [|split].
    + intros p Hp. apply lookup_insert_ne. congruence.
    + intros p n Hn. rewrite lookup_insert_ne; [exact Hn|].
      intros <-. rewrite Hfree in Hn. discriminate.
    + discriminate.
  - repeat split; auto.
Qed.

Lemma filesystem_frame_witness :
  (others locked_world = []
   /\ (config_py locked_world).1 = Raised PermissionError
   /\ entries (files locked_world) !! "data" = Some RegularFile
   /\ cwd_writable (files (config_py locked_world).2)
      = cwd_writable (files locked_world)
   /\ (forall p, p <> "logs" ->
                 entries (files (config_py locked_world).2) !! p
                 = entries (files locked_world) !! p)
   /\ (forall p n, entries (files locked_world) !! p = Some n ->
                   entries (files (config_py locked_world).2) !! p = Some n)
   /\ (forall e, (config_py locked_world).1 = Raised e ->
                 files (config_py locked_world).2 = files locked_world))
  /\ (others busy_world = []
      /\ entries (files (config_py busy_world).2) !! "logs" = Some (Directory true)
      /\ cwd_writable (files (config_py busy_world).2)
         = cwd_writable (files busy_world)
      /\ (forall p, p <> "logs" ->
                    entries (files (config_py busy_world).2) !! p
                    = entries (files busy_world) !! p)
      /\ (forall p n, entries (files busy_world) !! p = Some n ->
                      entries (files (config_py busy_world).2) !! p = Some n)
      /\ (forall e, (config_py busy_world).1 = Raised e ->
                    files (config_py busy_world).2 = files busy_world)).
Proof.
  split.
  - split; [reflexivity|]. split; [reflexivity|]. split; [reflexivity|].
    exact (filesystem_frame locked_world eq_refl).
  - split; [reflexivity|]. split; [reflexivity|].
    exact (filesystem_frame busy_world eq_refl).
Defined.

(** ** What the module does to the environment *)

(** X5: the module only adds to [os.environ], whether it returns or
    raises: a variable that was set keeps its value, and a variable that
    is set afterwards and was not before has its value from an entry of
    the [.env] file. *)
Theorem environ_only_extended (w : World) :
  (forall key v, environ w !! key = Some v ->
                 environ (config_py w).2 !! key = Some v)
  /\ (forall key v,
         environ (config_py w).2 !! key = Some v ->
         environ w !! key = Some v
         \/ (environ w !! key = None
             /\ exists kvs k, dotenv_file w = Some kvs
                              /\ (k, Some v) ∈ kvs
                              /\ encodekey (platform w) k = key)).
Proof.
  destruct (config_py_environ w (config_py w).2 (config_py w).1
              (surjective_pairing _)) as (Henv & _ & _).
  rewrite Henv. split.
  - intros key v. apply environ_after_dotenv_keeps.
  - intros key v. apply environ_after_dotenv_origin.
Qed.

(** X6: the production endpoint is never chosen by default.  When the
    module returns a configuration whose URL is the production endpoint,
    TESTNET was set to a string other than True: in the process
    environment, or, the process environment not having it, by an entry
    of the [.env] file. *)
Theorem production_needs_explicit_flag (w w' : World) (cfg : Config) :
  config_py w = (Returned cfg, w') ->
  FUTURES_BASE_URL cfg = "https://fapi.binance.com" ->
  exists v,
    v <> "True"
    /\ (environ w !! "TESTNET" = Some v
        \/ (environ w !! "TESTNET" = None
            /\ exists kvs k, dotenv_file w = Some kvs
                             /\ (k, Some v) ∈ kvs
                             /\ encodekey (platform w) k = "TESTNET")).
Proof.
  intros Hret Hurl.
  pose proof (settings_run w) as Hs. cbv zeta in Hs.
  rewrite (config_py_returns_settings _ _ _ _ _ Hs Hret) in Hurl.
  cbn [FUTURES_BASE_URL] in Hurl.
  destruct (environ_after_dotenv w !! "TESTNET") as [v|] eqn:Hflag;
    [|discriminate].
  exists v. split.
  - intros ->. discriminate.
  - now apply environ_after_dotenv_origin.
Qed.

Lemma production_needs_explicit_flag_witness :
  config_py first_world = (Returned first_config, second_world)
  /\ FUTURES_BASE_URL first_config = "https://fapi.binance.com"
  /\ exists v,
       v <> "True"
       /\ (environ first_world !! "TESTNET" = Some v
           \/ (environ first_world !! "TESTNET" = None
               /\ exists kvs k, dotenv_file first_world = Some kvs
                                /\ (k, Some v) ∈ kvs
                                /\ encodekey (platform first_world) k = "TESTNET")).
Proof.
  assert (Hfirst : config_py first_world = (Returned first_config, second_world))
    by (vm_compute; reflexivity).
  split; [exact Hfirst|]. split; [reflexivity|].
  exact (production_needs_explicit_flag first_world second_world first_config
           Hfirst eq_refl).
Defined.

(** ** Running the module again, alone *)

(** X8: in a process that runs alone a second run of the module, in the
    world the first run left, ends as the first did: it returns the same
    configuration, or raises the same exception; it leaves the
    filesystem and [os.environ] as the first run left them. *)
Theorem loading_again_alone (w w' : World) (r : outcome Config) :
  others w = [] ->
  config_py w = (r, w') ->
  exists w'',
    config_py w' = (r, w'')
    /\ files w'' = files w'
    /\ environ w'' = environ w'.
Proof.
  intros Halone Hrun.
  destruct (config_py_environ _ _ _ Hrun) as (Henv & Hplat & Hfile).
  assert (Hsame : environ_after_dotenv w' = environ_after_dotenv w).
  { unfold environ_after_dotenv at 1. rewrite Hfile, Hplat, Henv.
    unfold environ_after_dotenv.
    destruct (dotenv_file w); [apply dotenv_idempotent|reflexivity]. }
  destruct (config_py_alone_cases _ _ _ Halone Hrun) as (cfg & Hs & Halone' & Hcases).
  pose proof (settings_same w w' _ cfg Hplat Hsame Hs) as Hs2.
  destruct (config_py_alone w' Halone') as (cfg' & Hs' & Hc'). cbv zeta in Hc'.
  assert (Hcfg : cfg' = cfg) by congruence. subst cfg'.
  rewrite Hc'. clear Hc'. rewrite Hplat.
  destruct Hcases as [(Hfound & -> & Hf)|[(_ & _ & -> & Hf)|(Hfound & e & Hmk & -> & Hf)]];
    rewrite Hf.
  - rewrite Hfound. eexists. split; [reflexivity|].
    cbn [files environ after_call with_environ].
    split; [reflexivity|rewrite Hsame; symmetry; exact Henv].
  - cbn [with_directory entries]. rewrite lookup_insert_eq. cbn [found resolves].
    eexists. split; [reflexivity|].
    cbn [files environ after_call with_environ].
    split; [reflexivity|rewrite Hsame; symmetry; exact Henv].
  - rewrite Hfound, Hmk. eexists. split; [reflexivity|].
    cbn [files environ after_call with_environ].
    split; [reflexivity|rewrite Hsame; symmetry; exact Henv].
Qed.

Lemma loading_again_alone_witness :
  others first_world = []
  /\ config_py first_world = (Returned first_config, second_world)
  /\ exists w'',
       config_py second_world = (Returned first_config, w'')
       /\ files w'' = files second_world
       /\ environ w'' = environ second_world.
Proof.
  assert (Hfirst : config_py first_world = (Returned first_config, second_world))
    by (vm_compute; reflexivity).
  split; [reflexivity|]. split; [exact Hfirst|].
  exact (loading_again_alone first_world second_world (Returned first_config)
           eq_refl Hfirst).
Defined.

(** ** What the [.env] file supplies *)











(** ** What is at the path after the module *)

(** X10: whatever the world, when the module returns something is at
    the path logs: a directory, or else the very entry the check found
    there. *)
Theorem log_path_exists_after_load (w w' : World) (cfg : Config) :
  config_py w = (Returned cfg, w') ->
  exists n,
    entries (files w') !! "logs" = Some n
    /\ ((forall b, n <> Directory b) ->
        entries (next_files w) !! "logs" = Some n /\ resolves n = true).
Proof.
  intros Hret.
  destruct (config_py_shape w) as (cfg0 & _ & _ & Hc). cbv zeta in Hc.
  rewrite Hc in Hret. clear Hc.
  destruct (entries (next_files w) !! "logs") as [n|] eqn:Hcheck; cbn [found] in Hret.
  - destruct (resolves n) eqn:Hres.
    + inversion Hret. exists n. split; [exact Hcheck|]. now intros _.
    + rewrite mkdir_fs_logs in Hret.
      match type of Hret with
      | context [entries ?fs !! "logs"] => destruct (entries fs !! "logs") as [[]|]
      end; try discriminate.
      match type of Hret with
      | context [cwd_writable ?fs] => destruct (cwd_writable fs)
      end; [|discriminate].
      inversion Hret. exists (Directory true).
      split; [apply lookup_insert_eq|]. intros Hnot. now destruct (Hnot true).
  - rewrite mkdir_fs_logs in Hret.
    match type of Hret with
    | context [entries ?fs !! "logs"] => destruct (entries fs !! "logs") as [[]|]
    end; try discriminate.
    match type of Hret with
    | context [cwd_writable ?fs] => destruct (cwd_writable fs)
    end; [|discriminate].
    inversion Hret. exists (Directory true).
    split; [apply lookup_insert_eq|]. intros Hnot. now destruct (Hnot true).
Qed.

Lemma log_path_exists_after_load_witness :
  config_py file_world
  = (Returned {| BINANCE_API_KEY := None; BINANCE_API_SECRET := None;
                 TESTNET := true;
                 FUTURES_BASE_URL := "https://testnet.binancefuture.com";
                 LOG_DIR := "logs"; LOG_FILE := "logs/bot.log" |},
     (config_py file_world).2)
  /\ exists n,
       entries (files (config_py file_world).2) !! "logs" = Some n
       /\ ((forall b, n <> Directory b) ->
           entries (next_files file_world) !! "logs" = Some n
           /\ resolves n = true).
Proof.
  assert (Hrun : config_py file_world
                 = (Returned {| BINANCE_API_KEY := None; BINANCE_API_SECRET := None;
                                TESTNET := true;
                                FUTURES_BASE_URL := "https://testnet.binancefuture.com";
                                LOG_DIR := "logs"; LOG_FILE := "logs/bot.log" |},
                    (config_py file_world).2))
    by (vm_compute; reflexivity).
  split; [exact Hrun|].
  exact (log_path_exists_after_load file_world _ _ Hrun).
Defined.
